(** * Call-quality scorecard stack: the declared pipeline and its properties

    Shallow embedding of [src/lib/call-quality-scorecard-stack.ts], the CDK
    stack that declares the blob store, the configuration deployment, the
    three IAM policies and the two storage-triggered stages (the
    [audio-to-text] and [call-scoring] functions).

    The stack constructor is embedded as a small state-and-error monad over
    the construct tree of the stack: every [new X(this, id, props)] adds a
    child under [id] (a second child with the same id throws), and the
    methods that mutate a construct after its creation
    ([attachInlinePolicy], [addEventSource], [applyRemovalPolicy]) update it
    in place in that shared tree.  The deploy-time meaning of what the stack
    declares (IAM wildcard matching, notification filtering, stack removal)
    is given by small executable functions over the synthesized tree. *)

From Stdlib Require Import String Ascii List Bool ZArith Lia.
From stdpp Require Import base option gmap strings list.

Local Open Scope string_scope.
Local Open Scope Z_scope.

#[local] Arguments String.append !_ _ / : simpl nomatch.

(** ** Strings *)

(** JavaScript's [s.startsWith(p)], which is also how a notification
    prefix filter reads an object key. *)
Fixpoint startsWith (s p : string) {struct p} : bool :=
  match p with
  | EmptyString => true
  | String c p' =>
      match s with
      | EmptyString => false
      | String d s' => Ascii.eqb c d && startsWith s' p'
      end
  end.

(** What is left of [s] after its prefix [p], when it starts with [p]. *)
Fixpoint stripPrefix (s p : string) {struct p} : option string :=
  match p with
  | EmptyString => Some s
  | String c p' =>
      match s with
      | EmptyString => None
      | String d s' => if Ascii.eqb c d then stripPrefix s' p' else None
      end
  end.

(** [s.endsWith(p)], the reading of a notification suffix filter. *)
Fixpoint endsWith (s p : string) : bool :=
  String.eqb s p
  || match s with
     | EmptyString => false
     | String _ s' => endsWith s' p
     end.

(** ** Wildcard patterns

    Policy actions and resources, and the event names of a notification
    configuration, are patterns in which [*] stands for any run of
    characters and [?] for any one character. *)
Module Glob.

Definition is_star (c : ascii) : bool := Ascii.eqb c "*".
Definition is_qmark (c : ascii) : bool := Ascii.eqb c "?".

Fixpoint matches (p s : string) : bool :=
  match p with
  | EmptyString =>
      match s with EmptyString => true | String _ _ => false end
  | String c p' =>
      if is_star c then
        (fix star (s : string) : bool :=
           matches p' s
           || match s with
              | EmptyString => false
              | String _ s' => star s'
              end) s
      else
        match s with
        | EmptyString => false
        | String d s' => (is_qmark c || Ascii.eqb c d) && matches p' s'
        end
  end.

(** A string with no wildcard character in it. *)
Fixpoint literal (p : string) : bool :=
  match p with
  | EmptyString => true
  | String c p' => negb (is_star c) && negb (is_qmark c) && literal p'
  end.

End Glob.

(** ** The constructs the stack declares *)

(** A piece of a template literal.  [this.region], [this.account] and the
    attributes of a bucket are tokens: they stand for values that exist
    only once the stack is deployed.  A bucket is named by the id of its
    construct in the stack. *)
Inductive Part : Type :=
| Lit (s : string)
| Region
| Account
| BucketArn (bucket : string)
| BucketName (bucket : string).

Definition Template : Type := list Part.

Inductive RemovalPolicy : Type := DESTROY | RETAIN | SNAPSHOT.

Inductive TimeUnit : Type := Seconds | Minutes.

Record Duration : Type := mkDuration { amount : Z; unit_ : TimeUnit }.

Module Duration.
Definition seconds (n : Z) : Duration := mkDuration n Seconds.
Definition toSeconds (d : Duration) : Z :=
  match unit_ d with
  | Seconds => amount d
  | Minutes => 60 * amount d
  end.
End Duration.

Module s3.

Inductive BlockPublicAccess : Type := BLOCK_ALL | BLOCK_ACLS.

(** [s3.EventType]: the members are the event-name patterns of the
    notification configuration. *)
Module EventType.
Definition OBJECT_CREATED : string := "s3:ObjectCreated:*".
Definition OBJECT_CREATED_PUT : string := "s3:ObjectCreated:Put".
Definition OBJECT_REMOVED : string := "s3:ObjectRemoved:*".
End EventType.

Record NotificationKeyFilter : Type := {
  prefix : option string;
  suffix : option string;
}.

Record LifecycleRule : Type := {
  rulePrefix : option string;
  expiration : option Duration;
}.

(** The props of [new s3.Bucket].  A prop the source leaves out is
    [None] (or the empty list). *)
Record Bucket : Type := {
  blockPublicAccess : option BlockPublicAccess;
  removalPolicy : option RemovalPolicy;
  lifecycleRules : list LifecycleRule;
  autoDeleteObjects : option bool;
}.

End s3.

Module s3deploy.

(** [Source.asset(path.join(__dirname, rel))]: a local directory, given
    relative to the directory of the stack's source file. *)
Inductive Source : Type := asset (rel : string).

(** The props of [new s3deploy.BucketDeployment].  The source leaves
    [prune] out. *)
Record BucketDeployment : Type := {
  sources : list Source;
  destinationBucket : string;
  destinationKeyPrefix : option string;
  retainOnDelete : option bool;
  prune : option bool;
}.

End s3deploy.

Module iam.

Record PolicyStatement : Type := {
  actions : list string;
  resources : list Template;
}.

(** [roles] is filled by [attachInlinePolicy]: the functions whose role
    the policy has been attached to. *)
Record Policy : Type := {
  policyName : string;
  statements : list PolicyStatement;
  roles : list string;
}.

(** The execution role a function is created with.  [managedPolicies]
    names the managed policies the role carries from its creation;
    [inlinePolicies] holds what [attachInlinePolicy] was given, in order:
    the id of a policy construct, or [None] for [undefined]. *)
Record Role : Type := {
  managedPolicies : list string;
  inlinePolicies : list (option string);
}.

(** The managed policy every function role is created with. *)
Definition AWSLambdaBasicExecutionRole : string :=
  "service-role/AWSLambdaBasicExecutionRole".

(** The document of a managed policy.  The basic execution policy lets
    the function write its logs and nothing else. *)
Definition managedPolicyDocument (name : string) : list PolicyStatement :=
  if String.eqb name AWSLambdaBasicExecutionRole
  then [ {| actions := ["logs:CreateLogGroup"; "logs:CreateLogStream";
                        "logs:PutLogEvents"];
            resources := [ [Lit "*"] ] |} ]
  else [].

End iam.

Module eventsources.

Inductive EventSource : Type :=
| S3EventSource (bucket : string) (events : list string)
                (filters : list s3.NotificationKeyFilter).

End eventsources.

Module lambda.

Inductive Runtime : Type := NODEJS_14_X | NODEJS_16_X.
Inductive Architecture : Type := ARM_64 | X86_64.
Inductive RetentionDays : Type := ONE_DAY | ONE_WEEK | INFINITE.

(** A resource permission added with [addPermission]: which principal
    may invoke the function, and on behalf of which resource. *)
Record Permission : Type := {
  principal : string;
  sourceAccount : Template;
  sourceArn : Template;
}.

Record BundlingOptions : Type := { nodeModules : list string }.

(** The props of [new NodejsFunction], as the source passes them. *)
Record NodejsFunctionProps : Type := {
  functionName : string;
  runtime : Runtime;
  entry : string;
  architecture : Architecture;
  memorySize : Z;
  timeout : Duration;
  bundling : option BundlingOptions;
  environment : gmap string Template;
  logRetention : RetentionDays;
}.

(** The function construct: its props, the environment variables it is
    started with, and what the methods called on it have set. *)
Record Function : Type := {
  props : NodejsFunctionProps;
  variables : gmap string Template;
  removalPolicy : option RemovalPolicy;
  role : option iam.Role;
  eventSources : list eventsources.EventSource;
  permissions : list Permission;
}.

End lambda.

Module events.

(** An event rule and the functions it targets.  The stack declares
    none: the only rule in the source is commented out. *)
Record Rule : Type := { source : list string; targets : list string }.

End events.

(** [CUnfinished] is a construct that joined the tree and whose own
    constructor then threw. *)
Inductive Construct : Type :=
| CBucket (b : s3.Bucket)
| CDeployment (d : s3deploy.BucketDeployment)
| CPolicy (p : iam.Policy)
| CFunction (f : lambda.Function)
| CRule (r : events.Rule)
| CUnfinished (kind : string).

#[global] Instance Part_eq_dec : EqDecision Part.
Proof. solve_decision. Defined.

(** The stack object: its construct tree and the private fields of the
    class, unset until the constructor assigns them.  A field holds the id
    of the construct it refers to. *)
Record Stack : Type := {
  children : gmap string Construct;
  bucket : option string;
  s3Policy : option string;
  transcribePolicy : option string;
  bedrockRuntimePolicy : option string;
  lambdaAudioToText : option string;
  lambdaCallAnalysis : option string;
}.

(** ** The constructor, as a program over the stack object *)

Inductive Error : Type :=
| DuplicateId (id : string)
| Undefined (field : string)
| NotA (kind id : string).

Inductive Result (A : Type) : Type :=
| Ok (a : A)
| Throw (e : Error).
Arguments Ok {A} a.
Arguments Throw {A} e.

(** A step either returns or throws, and in both cases leaves the stack
    object as it has made it: what was added before an exception stays. *)
Definition M (A : Type) : Type := Stack -> Result A * Stack.

#[global] Instance M_ret : MRet M := fun A a st => (Ok a, st).
#[global] Instance M_bind : MBind M := fun A B k m st =>
  match m st with
  | (Ok a, st') => k a st'
  | (Throw e, st') => (Throw e, st')
  end.

Definition throw {A : Type} (e : Error) : M A := fun st => (Throw e, st).

Definition withChildren (f : gmap string Construct -> gmap string Construct)
    (st : Stack) : Stack :=
  {| children := f (children st);
     bucket := bucket st;
     s3Policy := s3Policy st;
     transcribePolicy := transcribePolicy st;
     bedrockRuntimePolicy := bedrockRuntimePolicy st;
     lambdaAudioToText := lambdaAudioToText st;
     lambdaCallAnalysis := lambdaCallAnalysis st |}.

(** [new X(this, id, props)]: the construct becomes a child of the stack
    under [id]; an id already in use throws.  The result is the reference
    to the new construct. *)
Definition new_ (id : string) (c : Construct) : M string := fun st =>
  match children st !! id with
  | Some _ => (Throw (DuplicateId id), st)
  | None => (Ok id, withChildren (insert id c) st)
  end.

(** [this.field.attribute]: dereferencing a field that is still unset
    throws. *)
Definition this (field : string) (get : Stack -> option string) : M string :=
  fun st =>
    match get st with
    | Some r => (Ok r, st)
    | None => (Throw (Undefined field), st)
    end.

(** [this.field] passed on as it is, [undefined] when unset. *)
Definition field (get : Stack -> option string) : M (option string) :=
  fun st => (Ok (get st), st).

Definition getFunction (fn : string) : M lambda.Function := fun st =>
  match children st !! fn with
  | Some (CFunction f) => (Ok f, st)
  | _ => (Throw (NotA "Function" fn), st)
  end.

Definition getPolicy (pol : string) : M iam.Policy := fun st =>
  match children st !! pol with
  | Some (CPolicy p) => (Ok p, st)
  | _ => (Throw (NotA "Policy" pol), st)
  end.

Definition put (id : string) (c : Construct) : M unit := fun st =>
  (Ok tt, withChildren (insert id c) st).

Definition setFunction (f : lambda.Function)
    (rp : option RemovalPolicy) (r : option iam.Role)
    (es : list eventsources.EventSource) (ps : list lambda.Permission)
    : lambda.Function :=
  {| lambda.props := lambda.props f;
     lambda.variables := lambda.variables f;
     lambda.removalPolicy := rp;
     lambda.role := r;
     lambda.eventSources := es;
     lambda.permissions := ps |}.

(** [new NodejsFunction(this, id, props)].  Besides keeping its props the
    construct creates the execution role of the function, which carries
    the basic execution managed policy and no inline policy, and adds the
    connection-reuse flag of the Node.js runtime to the environment the
    props give. *)
Definition NodejsFunction (id : string) (p : lambda.NodejsFunctionProps)
    : M string :=
  new_ id (CFunction
    {| lambda.props := p;
       lambda.variables :=
         <[ "AWS_NODEJS_CONNECTION_REUSE_ENABLED" := [Lit "1"] ]>
           (lambda.environment p);
       lambda.removalPolicy := None;
       lambda.role :=
         Some {| iam.managedPolicies := [iam.AWSLambdaBasicExecutionRole];
                 iam.inlinePolicies := [] |};
       lambda.eventSources := [];
       lambda.permissions := [] |}).

(** [fn.applyRemovalPolicy(policy)] *)
Definition applyRemovalPolicy (fn : string) (policy : RemovalPolicy) : M unit :=
  f ← getFunction fn;
  put fn (CFunction
    (setFunction f (Some policy) (lambda.role f) (lambda.eventSources f)
       (lambda.permissions f))).

(** [fn.role?.attachInlinePolicy(policy)].  Nothing happens when the
    function has no role.  Otherwise the role first takes what it was
    given into its inline policies, and then the policy records the role,
    once; handing over [undefined] throws at that second step. *)
Definition attachInlinePolicy (fn : string) (pol : option string) : M unit :=
  f ← getFunction fn;
  match lambda.role f with
  | None => mret tt
  | Some r =>
      put fn (CFunction
        (setFunction f (lambda.removalPolicy f)
           (Some {| iam.managedPolicies := iam.managedPolicies r;
                    iam.inlinePolicies := iam.inlinePolicies r ++ [pol] |})
           (lambda.eventSources f) (lambda.permissions f)));;
      match pol with
      | None => throw (Undefined "policy")
      | Some id =>
          p ← getPolicy id;
          if bool_decide (fn ∈ iam.roles p) then mret tt
          else put id (CPolicy
                 {| iam.policyName := iam.policyName p;
                    iam.statements := iam.statements p;
                    iam.roles := iam.roles p ++ [fn] |})
      end
  end.

(** The permission a bucket notification needs: the storage service may
    invoke the function on behalf of that bucket. *)
Definition notificationPermission (b : string) : lambda.Permission :=
  {| lambda.principal := "s3.amazonaws.com";
     lambda.sourceAccount := [Account];
     lambda.sourceArn := [BucketArn b] |}.

Definition samePermission (p q : lambda.Permission) : bool :=
  String.eqb (lambda.principal p) (lambda.principal q)
  && bool_decide (lambda.sourceAccount p = lambda.sourceAccount q)
  && bool_decide (lambda.sourceArn p = lambda.sourceArn q).

(** [fn.addEventSource(new S3EventSource(bucket, ...))]: the function
    takes the source, and the source, binding itself, has the function
    permit the storage service to invoke it for that bucket, unless it
    already does. *)
Definition addEventSource (fn : string) (src : eventsources.EventSource)
    : M unit :=
  f ← getFunction fn;
  match src with
  | eventsources.S3EventSource b _ _ =>
      let perm := notificationPermission b in
      put fn (CFunction
        (setFunction f (lambda.removalPolicy f) (lambda.role f)
           (lambda.eventSources f ++ [src])
           (if existsb (samePermission perm) (lambda.permissions f)
            then lambda.permissions f
            else lambda.permissions f ++ [perm])))
  end.

(** ** The methods of [CallQualityScorecardStack] *)

Definition setBucket (r : string) : M unit := fun st =>
  (Ok tt, {| children := children st;
             bucket := Some r;
             s3Policy := s3Policy st;
             transcribePolicy := transcribePolicy st;
             bedrockRuntimePolicy := bedrockRuntimePolicy st;
             lambdaAudioToText := lambdaAudioToText st;
             lambdaCallAnalysis := lambdaCallAnalysis st |}).

Definition setS3Policy (r : string) : M unit := fun st =>
  (Ok tt, {| children := children st;
             bucket := bucket st;
             s3Policy := Some r;
             transcribePolicy := transcribePolicy st;
             bedrockRuntimePolicy := bedrockRuntimePolicy st;
             lambdaAudioToText := lambdaAudioToText st;
             lambdaCallAnalysis := lambdaCallAnalysis st |}).

Definition setTranscribePolicy (r : string) : M unit := fun st =>
  (Ok tt, {| children := children st;
             bucket := bucket st;
             s3Policy := s3Policy st;
             transcribePolicy := Some r;
             bedrockRuntimePolicy := bedrockRuntimePolicy st;
             lambdaAudioToText := lambdaAudioToText st;
             lambdaCallAnalysis := lambdaCallAnalysis st |}).

Definition setBedrockRuntimePolicy (r : string) : M unit := fun st =>
  (Ok tt, {| children := children st;
             bucket := bucket st;
             s3Policy := s3Policy st;
             transcribePolicy := transcribePolicy st;
             bedrockRuntimePolicy := Some r;
             lambdaAudioToText := lambdaAudioToText st;
             lambdaCallAnalysis := lambdaCallAnalysis st |}).

Definition setLambdaAudioToText (r : string) : M unit := fun st =>
  (Ok tt, {| children := children st;
             bucket := bucket st;
             s3Policy := s3Policy st;
             transcribePolicy := transcribePolicy st;
             bedrockRuntimePolicy := bedrockRuntimePolicy st;
             lambdaAudioToText := Some r;
             lambdaCallAnalysis := lambdaCallAnalysis st |}).

Definition setLambdaCallAnalysis (r : string) : M unit := fun st =>
  (Ok tt, {| children := children st;
             bucket := bucket st;
             s3Policy := s3Policy st;
             transcribePolicy := transcribePolicy st;
             bedrockRuntimePolicy := bedrockRuntimePolicy st;
             lambdaAudioToText := lambdaAudioToText st;
             lambdaCallAnalysis := Some r |}).

(** The bucket is created with public access blocked and kept on removal;
    the source gives it no lifecycle rule and no [autoDeleteObjects]. *)
Definition createBucket : M string :=
  new_ "SummarizerBucket" (CBucket
    {| s3.blockPublicAccess := Some s3.BLOCK_ALL;
       s3.removalPolicy := Some RETAIN;
       s3.lifecycleRules := [];
       s3.autoDeleteObjects := None |}).

(** The directory [./config] next to the stack's source file is deployed
    into [this.bucket] under the key prefix [config].  [this.bucket] is
    handed over as it is: were it still unset, the deployment would join
    the tree and throw on the missing bucket only then. *)
Definition uploadConfigToBucket : M unit :=
  b ← field bucket;
  match b with
  | Some b =>
      new_ "DeployConfig" (CDeployment
        {| s3deploy.sources := [s3deploy.asset "./config"];
           s3deploy.destinationBucket := b;
           s3deploy.destinationKeyPrefix := Some "config";
           s3deploy.retainOnDelete := Some true;
           s3deploy.prune := None |});;
      mret tt
  | None =>
      new_ "DeployConfig" (CUnfinished "BucketDeployment");;
      throw (Undefined "bucket")
  end.

(** One statement: every store action, on the bucket and on everything
    in it.  [this.bucket] is read once for each of the two resources. *)
Definition createS3Policy : M string :=
  b ← this "bucket" bucket;
  b' ← this "bucket" bucket;
  new_ "S3Policy" (CPolicy
    {| iam.policyName := "S3Policy";
       iam.statements :=
         [ {| iam.actions := ["s3:*"];
              iam.resources := [ [BucketArn b]; [BucketArn b'; Lit "/*"] ] |} ];
       iam.roles := [] |}).

(** One statement: every transcription action, on the resources of
    [this.region] and [this.account]. *)
Definition createTranscribePolicy : M string :=
  new_ "TranscribePolicy" (CPolicy
    {| iam.policyName := "TranscribePolicy";
       iam.statements :=
         [ {| iam.actions := ["transcribe:*"];
              iam.resources :=
                [ [Lit "arn:aws:transcribe:"; Region; Lit ":"; Account;
                   Lit ":*"] ] |} ];
       iam.roles := [] |}).

(** One statement: the two model-invocation actions, on the wildcard
    resource (the region-scoped resources are commented out in the
    source). *)
Definition createBedrockRuntimePolicy : M string :=
  new_ "BedrockRuntimePolicy" (CPolicy
    {| iam.policyName := "BedrockRuntimePolicy";
       iam.statements :=
         [ {| iam.actions :=
                ["bedrock:InvokeModel"; "bedrock:InvokeModelWithResponseStream"];
              iam.resources := [ [Lit "*"] ] |} ];
       iam.roles := [] |}).

(** The Transcription Stage. *)
Definition createLambdaS3TriggerTranscribeFunction : M string :=
  b ← this "bucket" bucket;
  lambdaFunction ← NodejsFunction "S3RecordingTriggerTranscribe"
    {| lambda.functionName := "audio-to-text";
       lambda.runtime := lambda.NODEJS_16_X;
       lambda.entry := "lambda/audio-to-text.js";
       lambda.architecture := lambda.ARM_64;
       lambda.memorySize := 128;
       lambda.timeout := Duration.seconds 15;
       lambda.bundling := None;
       lambda.environment := {[ "OUTPUT_BUCKET" := [BucketName b] ]};
       lambda.logRetention := lambda.ONE_WEEK |};
  applyRemovalPolicy lambdaFunction DESTROY;;
  p ← field s3Policy;
  attachInlinePolicy lambdaFunction p;;
  p ← field transcribePolicy;
  attachInlinePolicy lambdaFunction p;;
  b ← this "bucket" bucket;
  addEventSource lambdaFunction
    (eventsources.S3EventSource b [s3.EventType.OBJECT_CREATED]
       [ {| s3.prefix := Some "voices/"; s3.suffix := None |} ]);;
  mret lambdaFunction.

(** The Scoring Stage.  Its role is attached all three policies. *)
Definition createLambdaS3TriggerBedrockFunction : M string :=
  b ← this "bucket" bucket;
  lambdaFunction ← NodejsFunction "S3TranscriptionTriggerBedrock"
    {| lambda.functionName := "call-scoring";
       lambda.runtime := lambda.NODEJS_16_X;
       lambda.entry := "lambda/call-scoring.js";
       lambda.architecture := lambda.ARM_64;
       lambda.memorySize := 128;
       lambda.timeout := Duration.seconds 120;
       lambda.bundling :=
         Some {| lambda.nodeModules :=
                   ["@aws-sdk/client-bedrock-runtime"; "@aws-sdk/client-s3"] |};
       lambda.environment := {[ "OUTPUT_BUCKET" := [BucketName b] ]};
       lambda.logRetention := lambda.ONE_WEEK |};
  applyRemovalPolicy lambdaFunction DESTROY;;
  p ← field s3Policy;
  attachInlinePolicy lambdaFunction p;;
  p ← field transcribePolicy;
  attachInlinePolicy lambdaFunction p;;
  p ← field bedrockRuntimePolicy;
  attachInlinePolicy lambdaFunction p;;
  b ← this "bucket" bucket;
  addEventSource lambdaFunction
    (eventsources.S3EventSource b [s3.EventType.OBJECT_CREATED]
       [ {| s3.prefix := Some "transcription/"; s3.suffix := None |} ]);;
  mret lambdaFunction.

(** [super(scope, id, props)] leaves an empty stack. *)
Definition super : Stack :=
  {| children := ∅;
     bucket := None;
     s3Policy := None;
     transcribePolicy := None;
     bedrockRuntimePolicy := None;
     lambdaAudioToText := None;
     lambdaCallAnalysis := None |}.

Definition constructor : M unit :=
  r ← createBucket; setBucket r;;
  uploadConfigToBucket;;
  r ← createS3Policy; setS3Policy r;;
  r ← createTranscribePolicy; setTranscribePolicy r;;
  r ← createBedrockRuntimePolicy; setBedrockRuntimePolicy r;;
  r ← createLambdaS3TriggerTranscribeFunction; setLambdaAudioToText r;;
  r ← createLambdaS3TriggerBedrockFunction; setLambdaCallAnalysis r.

(** [new CallQualityScorecardStack(scope, id, props)]: how the
    constructor ends, and the stack object it leaves. *)
Definition CallQualityScorecardStack : Result unit * Stack :=
  constructor super.

(** The synthesized stack ([synthesis_succeeds] shows the constructor
    returns). *)
Definition stack : Stack := snd CallQualityScorecardStack.

(** ** What the declarations mean once deployed *)

(** The values the tokens stand for in one deployment: the region and
    the account of the stack, and the name each bucket construct gets. *)
Record Env : Type := {
  region : string;
  account : string;
  bucketName : string -> string;
}.

Definition bucketArn (env : Env) (b : string) : string :=
  "arn:aws:s3:::" +:+ bucketName env b.

Definition resolvePart (env : Env) (p : Part) : string :=
  match p with
  | Lit s => s
  | Region => region env
  | Account => account env
  | BucketArn b => bucketArn env b
  | BucketName b => bucketName env b
  end.

Definition resolve (env : Env) (t : Template) : string :=
  foldr (fun p acc => resolvePart env p +:+ acc) "" t.

(** Every transcription resource of the stack's own region and account
    has a name that starts like this. *)
Definition transcribeArnPrefix (env : Env) : string :=
  "arn:aws:transcribe:" +:+ region env +:+ ":" +:+ account env +:+ ":".

(** One deployment, to run the definitions on. *)
Definition exampleEnv : Env :=
  {| region := "us-east-1";
     account := "123456789012";
     bucketName := fun b => "calls-" +:+ b |}.

(** The two stages of the pipeline and the field of the stack each one
    is kept in. *)
Inductive Stage : Type := Transcription | Scoring.

Definition stageRef (st : Stack) (s : Stage) : option string :=
  match s with
  | Transcription => lambdaAudioToText st
  | Scoring => lambdaCallAnalysis st
  end.

Definition functionAt (st : Stack) (fn : string) : option lambda.Function :=
  match children st !! fn with
  | Some (CFunction f) => Some f
  | _ => None
  end.

Definition policyAt (st : Stack) (pol : string) : option iam.Policy :=
  match children st !! pol with
  | Some (CPolicy p) => Some p
  | _ => None
  end.

Definition bucketAt (st : Stack) (b : string) : option s3.Bucket :=
  match children st !! b with
  | Some (CBucket x) => Some x
  | _ => None
  end.

Definition stageFunction (st : Stack) (s : Stage) : option lambda.Function :=
  fn ← stageRef st s; functionAt st fn.

(** The invocation time budget of a stage, in seconds. *)
Definition timeBudget (st : Stack) (s : Stage) : option Z :=
  f ← stageFunction st s;
  Some (Duration.toSeconds (lambda.timeout (lambda.props f))).

(** The environment a stage is started with. *)
Definition stageEnvironment (st : Stack) (s : Stage) : gmap string Template :=
  match stageFunction st s with
  | Some f => lambda.variables f
  | None => ∅
  end.

Definition stageEventSources (st : Stack) (s : Stage)
    : list eventsources.EventSource :=
  match stageFunction st s with
  | Some f => lambda.eventSources f
  | None => []
  end.

(** *** Execution identities *)

Definition stageRole (st : Stack) (s : Stage) : option iam.Role :=
  f ← stageFunction st s; lambda.role f.

(** The ids of the policy constructs attached to the execution role of a
    stage. *)
Definition attachedPolicies (st : Stack) (s : Stage) : list string :=
  match stageRole st s with
  | Some r => omap (fun p => p) (iam.inlinePolicies r)
  | None => []
  end.

(** The managed policies that role carries. *)
Definition carriedPolicies (st : Stack) (s : Stage) : list string :=
  match stageRole st s with
  | Some r => iam.managedPolicies r
  | None => []
  end.

(** The statements those policies contribute to the identity: the ones
    of the attached policy constructs, then the ones of the managed
    policies. *)
Definition identityStatements (st : Stack) (s : Stage)
    : list iam.PolicyStatement :=
  flat_map
    (fun pol => match policyAt st pol with
                | Some p => iam.statements p
                | None => []
                end)
    (attachedPolicies st s)
  ++ flat_map iam.managedPolicyDocument (carriedPolicies st s).

(** A statement allows a request when one of its action patterns
    matches the action and one of its resource patterns the resource. *)
Definition statementAllows (env : Env) (stmt : iam.PolicyStatement)
    (action resource : string) : bool :=
  existsb (fun a => Glob.matches a action) (iam.actions stmt)
  && existsb (fun r => Glob.matches (resolve env r) resource)
       (iam.resources stmt).

Definition policyAllows (env : Env) (st : Stack) (pol : option string)
    (action resource : string) : bool :=
  match pol ≫= policyAt st with
  | Some p =>
      existsb (fun stmt => statementAllows env stmt action resource)
        (iam.statements p)
  | None => false
  end.

(** What the identity of a stage is allowed to do. *)
Definition canCall (env : Env) (st : Stack) (s : Stage)
    (action resource : string) : bool :=
  existsb (fun stmt => statementAllows env stmt action resource)
    (identityStatements st s).

(** The three actions of the basic execution policy. *)
Definition isLogging (action : string) : bool :=
  String.eqb "logs:CreateLogGroup" action
  || String.eqb "logs:CreateLogStream" action
  || String.eqb "logs:PutLogEvents" action.

(** The resource name of the object stored under [key] in bucket [b]. *)
Definition objectArn (env : Env) (b key : string) : string :=
  bucketArn env b +:+ "/" +:+ key.

(** *** Storage notifications *)

Record S3Event : Type := {
  eventBucket : string;
  eventName : string;
  key : string;
}.

Definition filterMatches (f : s3.NotificationKeyFilter) (k : string) : bool :=
  match s3.prefix f with Some p => startsWith k p | None => true end
  && match s3.suffix f with Some x => endsWith k x | None => true end.

Definition sourceMatches (env : Env) (src : eventsources.EventSource)
    (e : S3Event) : bool :=
  match src with
  | eventsources.S3EventSource b evs fs =>
      String.eqb (bucketName env b) (eventBucket e)
      && existsb (fun p => Glob.matches p (eventName e)) evs
      && forallb (fun f => filterMatches f (key e)) fs
  end.

Definition sourceBucket (src : eventsources.EventSource) : string :=
  match src with
  | eventsources.S3EventSource b _ _ => b
  end.

(** The notification [e] invokes the stage. *)
Definition triggers (env : Env) (st : Stack) (s : Stage) (e : S3Event)
    : bool :=
  match stageFunction st s with
  | Some f => existsb (fun src => sourceMatches env src e)
                (lambda.eventSources f)
  | None => false
  end.

(** An object-create notification: [s3:ObjectCreated:Put], [...:Post],
    [...:Copy], [...:CompleteMultipartUpload]. *)
Definition objectCreated (name : string) : bool :=
  startsWith name "s3:ObjectCreated:".

(** *** Every way a stage can be invoked *)

Inductive InvocationPath : Type :=
| ByEventSource (src : eventsources.EventSource)
| ByPermission (p : lambda.Permission)
| ByRule (rule : string).

Definition rulesTargeting (st : Stack) (fn : string) : list string :=
  omap (fun '(id, c) =>
          match c with
          | CRule r => if bool_decide (fn ∈ events.targets r)
                       then Some id else None
          | _ => None
          end)
       (map_to_list (children st)).

Definition invocationPaths (st : Stack) (s : Stage) : list InvocationPath :=
  match stageRef st s, stageFunction st s with
  | Some fn, Some f =>
      map ByEventSource (lambda.eventSources f)
      ++ map ByPermission (lambda.permissions f)
      ++ map ByRule (rulesTargeting st fn)
  | _, _ => []
  end.

Definition isCreateNotification (p : InvocationPath) : bool :=
  match p with
  | ByEventSource (eventsources.S3EventSource _ evs _) =>
      forallb (fun ev => String.eqb ev s3.EventType.OBJECT_CREATED) evs
  | _ => false
  end.

(** The resource permissions of a stage let the principal [who] invoke
    it on behalf of the resource named [arn] of the account [acct]. *)
Definition mayInvoke (env : Env) (st : Stack) (s : Stage)
    (who acct arn : string) : bool :=
  match stageFunction st s with
  | Some f =>
      existsb (fun p => String.eqb (lambda.principal p) who
                        && String.eqb (resolve env (lambda.sourceAccount p))
                             acct
                        && String.eqb (resolve env (lambda.sourceArn p)) arn)
        (lambda.permissions f)
  | None => false
  end.

(** *** Retention *)

(** A lifecycle rule that expires the object under [k]. *)
Definition expires (b : s3.Bucket) (k : string) : bool :=
  existsb
    (fun r => match s3.rulePrefix r with
              | Some p => startsWith k p
              | None => true
              end
              && bool_decide (is_Some (s3.expiration r)))
    (s3.lifecycleRules b).

(** Removing the stack deletes a construct unless its removal policy
    keeps it.  A bucket is kept by default, everything else is deleted by
    default. *)
Definition keptOnRemoval (c : Construct) : bool :=
  match c with
  | CBucket b =>
      match s3.removalPolicy b with
      | Some DESTROY => false
      | _ => true
      end
  | CFunction f =>
      match lambda.removalPolicy f with
      | Some RETAIN | Some SNAPSHOT => true
      | _ => false
      end
  | CDeployment _ | CPolicy _ | CRule _ | CUnfinished _ => false
  end.

Definition removeStack (st : Stack) : gmap string Construct :=
  filter (fun kc => keptOnRemoval kc.2 = true) (children st).

(** The key a file of the deployed directory is stored under. *)
Definition deployedKey (d : s3deploy.BucketDeployment) (file : string)
    : string :=
  match s3deploy.destinationKeyPrefix d with
  | Some p => p +:+ "/" +:+ file
  | None => file
  end.

(** The keys a deployment regards as its own: those under its key
    prefix, read as a directory. *)
Definition destinationDir (d : s3deploy.BucketDeployment) : string :=
  match s3deploy.destinationKeyPrefix d with
  | Some p => p +:+ "/"
  | None => ""
  end.

Definition deployments (st : Stack) : list s3deploy.BucketDeployment :=
  omap (fun kc => match kc.2 with CDeployment d => Some d | _ => None end)
       (map_to_list (children st)).

Definition buckets (st : Stack) : list string :=
  omap (fun kc => match kc.2 with CBucket _ => Some kc.1 | _ => None end)
       (map_to_list (children st)).

(** The keys a deployment writes, [content] giving the files of each
    source directory. *)
Definition assetKeys (d : s3deploy.BucketDeployment)
    (content : string -> list string) : list string :=
  flat_map (fun src => match src with
                       | s3deploy.asset rel =>
                           map (deployedKey d) (content rel)
                       end)
    (s3deploy.sources d).

Definition holds (store : list string) (k : string) : bool :=
  existsb (String.eqb k) store.

(** A deployment prunes unless told not to: it deletes the keys of its
    directory that it does not write. *)
Definition prunes (d : s3deploy.BucketDeployment)
    (content : string -> list string) (k : string) : bool :=
  match s3deploy.prune d with Some false => false | _ => true end
  && startsWith k (destinationDir d)
  && negb (holds (assetKeys d content) k).

(** The keys of bucket [b] after the stack has been deployed over the
    keys [store]. *)
Definition deploy (st : Stack) (b : string) (content : string -> list string)
    (store : list string) : list string :=
  foldr
    (fun d acc =>
       if String.eqb (s3deploy.destinationBucket d) b
       then (assetKeys d content
             ++ List.filter (fun k => negb (prunes d content k)) acc)%list
       else acc)
    store (deployments st).

(** The object under [k] of bucket [b] is still there after the stack has
    been removed: the bucket is not emptied on removal, and no deployment
    into it takes its files back. *)
Definition emptiedOnRemoval (x : s3.Bucket) : bool :=
  match s3.removalPolicy x, s3.autoDeleteObjects x with
  | Some DESTROY, Some true => true
  | _, _ => false
  end.

Definition takesBack (d : s3deploy.BucketDeployment) (b k : string) : bool :=
  String.eqb (s3deploy.destinationBucket d) b
  && startsWith k (destinationDir d)
  && match s3deploy.retainOnDelete d with
     | Some false => true
     | _ => false
     end.

Definition survivesRemoval (st : Stack) (b k : string) : bool :=
  match bucketAt st b with
  | Some x =>
      negb (emptiedOnRemoval x)
      && forallb (fun d => negb (takesBack d b k)) (deployments st)
  | None => false
  end.

(** *** The consumer of the configuration *)

(** Modelled from the spec: the handler of the Scoring Stage
    ([lambda/call-scoring.js], which is not among the sources) composes
    its prompt from a configuration template retrieved from the store
    under prefix [config/]; [name] is the name of the template within
    that prefix. *)
Definition templateKey (name : string) : string := "config/" +:+ name.

(** Modelled from the spec: the handler fetches the template by that key
    from the store it is told to use.  The fetch finds the template when
    the identity of the stage may get the object and the store holds
    it. *)
Definition fetchTemplate (env : Env) (st : Stack) (store : list string)
    (name : string) : bool :=
  match stageEnvironment st Scoring !! "OUTPUT_BUCKET" with
  | Some v =>
      canCall env st Scoring "s3:GetObject"
        (("arn:aws:s3:::" +:+ resolve env v) +:+ "/" +:+ templateKey name)
      && holds store (templateKey name)
  | None => false
  end.

(** ** Properties *)

Lemma synthesis_succeeds : CallQualityScorecardStack = (Ok tt, stack).
Proof. vm_compute. reflexivity. Qed.

Example createS3Policy_before_bucket :
  createS3Policy super = (Throw (Undefined "bucket"), super).
Proof. reflexivity. Qed.

Example createBucket_twice :
  fst ((createBucket;; createBucket) super)
  = Throw (DuplicateId "SummarizerBucket").
Proof. vm_compute. reflexivity. Qed.

(** *** Strings and patterns *)

Example glob_star : Glob.matches "s3:*" "s3:PutObject" = true.
Proof. reflexivity. Qed.
Example glob_other : Glob.matches "s3:*" "bedrock:InvokeModel" = false.
Proof. reflexivity. Qed.
Example glob_mid : Glob.matches "a*c?e" "abbbcde" = true.
Proof. reflexivity. Qed.
Example glob_exact : Glob.matches "bedrock:InvokeModel" "bedrock:InvokeModelX" = false.
Proof. reflexivity. Qed.
Example startsWith_ex : startsWith "voices/a.wav" "voices/" = true.
Proof. reflexivity. Qed.
Example endsWith_ex : endsWith "voices/a.wav" ".wav" = true.
Proof. reflexivity. Qed.
Example endsWith_ex2 : endsWith "wav" "a.wav" = false.
Proof. reflexivity. Qed.


Lemma append_empty_r (s : string) : s +:+ "" = s.
Proof. induction s as [|c s IH]; simpl; [reflexivity | now rewrite IH]. Qed.

Lemma append_assoc' (a b c : string) : (a +:+ b) +:+ c = a +:+ (b +:+ c).
Proof. induction a as [|x a IH]; simpl; [reflexivity | now rewrite IH]. Qed.

Lemma length_append' (a b : string) :
  String.length (a +:+ b) = (String.length a + String.length b)%nat.
Proof. induction a as [|x a IH]; simpl; [reflexivity | now rewrite IH]. Qed.

Lemma startsWith_stripPrefix (s p : string) :
  startsWith s p = match stripPrefix s p with Some _ => true | None => false end.
Proof.
  revert s. induction p as [|c p IH]; intros s; simpl; [reflexivity |].
  destruct s as [|d s]; [reflexivity |].
  destruct (Ascii.eqb c d); simpl; [apply IH | reflexivity].
Qed.

Lemma stripPrefix_app (p t : string) : stripPrefix (p +:+ t) p = Some t.
Proof.
  induction p as [|c p IH]; simpl; [reflexivity |].
  now rewrite Ascii.eqb_refl.
Qed.

Lemma stripPrefix_Some (s p t : string) :
  stripPrefix s p = Some t -> s = p +:+ t.
Proof.
  revert s. induction p as [|c p IH]; intros s; simpl.
  - congruence.
  - destruct s as [|d s]; [discriminate |].
    destruct (Ascii.eqb_spec c d) as [->|]; [|discriminate].
    intros H. now rewrite (IH _ H).
Qed.

Lemma startsWith_app (p t : string) : startsWith (p +:+ t) p = true.
Proof.
  now rewrite startsWith_stripPrefix, stripPrefix_app.
Qed.

Lemma startsWith_inv (s p : string) :
  startsWith s p = true -> exists t, s = p +:+ t.
Proof.
  rewrite startsWith_stripPrefix.
  destruct (stripPrefix s p) as [t|] eqn:E; [|discriminate].
  intros _. exists t. now apply stripPrefix_Some.
Qed.

Lemma literal_app (a b : string) :
  Glob.literal (a +:+ b) = Glob.literal a && Glob.literal b.
Proof.
  induction a as [|c a IH]; simpl; [reflexivity |].
  rewrite IH. now rewrite andb_assoc.
Qed.

Lemma matches_star_unfold (p : string) (s : string) :
  Glob.matches (String "*" p) s
  = Glob.matches p s
    || match s with
       | EmptyString => false
       | String _ s' => Glob.matches (String "*" p) s'
       end.
Proof. destruct s; reflexivity. Qed.

Lemma matches_any (s : string) : Glob.matches "*" s = true.
Proof.
  induction s as [|c s IH].
  - reflexivity.
  - rewrite matches_star_unfold. rewrite IH. apply orb_true_r.
Qed.

Lemma matches_empty (s : string) : Glob.matches "" s = String.eqb "" s.
Proof. destruct s; reflexivity. Qed.

(** A pattern that begins with wildcard-free text matches exactly the
    strings that begin with that text and whose rest the rest of the
    pattern matches. *)
Lemma matches_literal_app (l p s : string) :
  Glob.literal l = true ->
  Glob.matches (l +:+ p) s
  = match stripPrefix s l with
    | Some t => Glob.matches p t
    | None => false
    end.
Proof.
  revert s. induction l as [|c l IH]; intros s Hl; simpl in *.
  - reflexivity.
  - apply andb_true_iff in Hl as [Hc Hl].
    apply andb_true_iff in Hc as [Hs Hq].
    apply negb_true_iff in Hs, Hq. rewrite Hs.
    destruct s as [|d s]; [reflexivity |].
    rewrite Hq. simpl.
    destruct (Ascii.eqb c d); simpl; [now apply IH | reflexivity].
Qed.

Lemma matches_literal_star (l s : string) :
  Glob.literal l = true ->
  Glob.matches (l +:+ "*") s = startsWith s l.
Proof.
  intros Hl. rewrite matches_literal_app by assumption.
  rewrite startsWith_stripPrefix.
  destruct (stripPrefix s l) as [t|]; [apply matches_any | reflexivity].
Qed.

Lemma matches_literal (l s : string) :
  Glob.literal l = true -> Glob.matches l s = String.eqb l s.
Proof.
  intros Hl. rewrite <- (append_empty_r l) at 1.
  rewrite matches_literal_app by assumption.
  destruct (stripPrefix s l) as [t|] eqn:E.
  - apply stripPrefix_Some in E. subst s. rewrite matches_empty.
    destruct t as [|c t]; simpl.
    + rewrite append_empty_r. symmetry. apply String.eqb_refl.
    + symmetry. apply String.eqb_neq. intros H.
      apply (f_equal String.length) in H.
      rewrite length_append' in H. simpl in H. lia.
  - symmetry. apply String.eqb_neq. intros ->.
    rewrite <- (append_empty_r s) in E at 1.
    rewrite stripPrefix_app in E. discriminate.
Qed.

(** Whatever characters a pattern is made of, it matches its own text
    followed by anything the rest of the pattern matches. *)
Lemma matches_self_app (l p t : string) :
  Glob.matches p t = true -> Glob.matches (l +:+ p) (l +:+ t) = true.
Proof.
  intros H. induction l as [|c l IH]; [exact H |].
  change (String c l +:+ p) with (String c (l +:+ p)).
  change (String c l +:+ t) with (String c (l +:+ t)).
  destruct (Glob.is_star c) eqn:Hs.
  - apply Ascii.eqb_eq in Hs. subst c.
    rewrite matches_star_unfold.
    rewrite (matches_star_unfold (l +:+ p) (l +:+ t)).
    rewrite IH. simpl. apply orb_true_r.
  - simpl. rewrite Hs. rewrite Ascii.eqb_refl, orb_true_r. exact IH.
Qed.

Lemma holds_app (a b : list string) (k : string) :
  holds (a ++ b)%list k = holds a k || holds b k.
Proof. apply existsb_app. Qed.

Lemma holds_filter (f : string -> bool) (l : list string) (k : string) :
  holds (List.filter f l) k = holds l k && f k.
Proof.
  unfold holds. induction l as [|x l IH]; [reflexivity |].
  cbn [List.filter existsb].
  destruct (String.eqb_spec k x) as [->|Hne].
  - destruct (f x); cbn [existsb orb andb].
    + now rewrite String.eqb_refl.
    + rewrite IH. now rewrite andb_false_r.
  - destruct (f x); cbn [existsb orb].
    + apply String.eqb_neq in Hne. now rewrite Hne.
    + exact IH.
Qed.

Lemma append_inj_l (p x y : string) : p +:+ x = p +:+ y -> x = y.
Proof.
  induction p as [|c p IH]; simpl; [auto |].
  intros H. injection H as H. now apply IH.
Qed.

Lemma holds_map_append (p : string) (l : list string) (x : string) :
  holds (map (String.append p) l) (p +:+ x) = holds l x.
Proof.
  unfold holds. induction l as [|y l IH]; [reflexivity |].
  cbn [map existsb]. rewrite IH. f_equal.
  destruct (String.eqb_spec x y) as [->|Hne].
  - apply String.eqb_refl.
  - apply String.eqb_neq. intros H. now apply Hne, (append_inj_l p).
Qed.

(** *** The synthesized stack, read back *)

Lemma stack_fields :
  bucket stack = Some "SummarizerBucket"
  /\ s3Policy stack = Some "S3Policy"
  /\ transcribePolicy stack = Some "TranscribePolicy"
  /\ bedrockRuntimePolicy stack = Some "BedrockRuntimePolicy"
  /\ lambdaAudioToText stack = Some "S3RecordingTriggerTranscribe"
  /\ lambdaCallAnalysis stack = Some "S3TranscriptionTriggerBedrock".
Proof. vm_compute. repeat split. Qed.

Lemma stack_buckets : buckets stack = ["SummarizerBucket"].
Proof. vm_compute. reflexivity. Qed.

Lemma stageEnvironment_stack (s : Stage) :
  stageEnvironment stack s
  = <[ "AWS_NODEJS_CONNECTION_REUSE_ENABLED" := [Lit "1"] ]>
      {[ "OUTPUT_BUCKET" := [BucketName "SummarizerBucket"] ]}.
Proof. destruct s; vm_compute; reflexivity. Qed.

Lemma output_bucket_stack (s : Stage) :
  stageEnvironment stack s !! "OUTPUT_BUCKET"
  = Some [BucketName "SummarizerBucket"].
Proof. destruct s; vm_compute; reflexivity. Qed.

Lemma resolve_bucketName (env : Env) (b : string) :
  resolve env [BucketName b] = bucketName env b.
Proof. cbv [resolve foldr resolvePart]. apply append_empty_r. Qed.

Lemma stageEventSources_stack (s : Stage) :
  stageEventSources stack s
  = [ eventsources.S3EventSource "SummarizerBucket"
        [s3.EventType.OBJECT_CREATED]
        [ {| s3.prefix :=
               Some match s with
                    | Transcription => "voices/"
                    | Scoring => "transcription/"
                    end;
             s3.suffix := None |} ] ].
Proof. destruct s; vm_compute; reflexivity. Qed.

Lemma triggers_sources (env : Env) (st : Stack) (s : Stage) (e : S3Event) :
  triggers env st s e
  = existsb (fun src => sourceMatches env src e) (stageEventSources st s).
Proof.
  unfold triggers, stageEventSources.
  destruct (stageFunction st s); reflexivity.
Qed.

(** *** Triggers *)

Lemma objectCreated_pattern (name : string) :
  Glob.matches s3.EventType.OBJECT_CREATED name = objectCreated name.
Proof.
  change s3.EventType.OBJECT_CREATED with ("s3:ObjectCreated:" +:+ "*").
  apply matches_literal_star. reflexivity.
Qed.

Lemma triggers_stack (env : Env) (s : Stage) (e : S3Event) :
  triggers env stack s e
  = String.eqb (bucketName env "SummarizerBucket") (eventBucket e)
    && objectCreated (eventName e)
    && startsWith (key e)
         match s with
         | Transcription => "voices/"
         | Scoring => "transcription/"
         end.
Proof.
  rewrite triggers_sources, stageEventSources_stack.
  cbv [existsb sourceMatches forallb filterMatches s3.prefix s3.suffix].
  rewrite objectCreated_pattern, !orb_false_r, !andb_true_r.
  reflexivity.
Qed.

(** C3: a notification invokes the Transcription Stage exactly when it
    comes from the stack's bucket, is an object-create notification and
    its key starts with [voices/]; it invokes the Scoring Stage exactly
    when it comes from that bucket, is an object-create notification and
    its key starts with [transcription/].  No other event name and no
    other prefix invokes either stage. *)
Theorem C3_triggers_exact (env : Env) (e : S3Event) :
  triggers env stack Transcription e
  = String.eqb (bucketName env "SummarizerBucket") (eventBucket e)
    && objectCreated (eventName e)
    && startsWith (key e) "voices/"
  /\ triggers env stack Scoring e
     = String.eqb (bucketName env "SummarizerBucket") (eventBucket e)
       && objectCreated (eventName e)
       && startsWith (key e) "transcription/".
Proof. split; apply triggers_stack. Qed.

Example triggers_voices :
  triggers {| region := "eu-west-1"; account := "111122223333";
              bucketName := fun _ => "calls" |} stack Transcription
    {| eventBucket := "calls"; eventName := "s3:ObjectCreated:Put";
       key := "voices/call-42.wav" |} = true.
Proof. vm_compute. reflexivity. Qed.

Example removal_does_not_trigger :
  triggers {| region := "eu-west-1"; account := "111122223333";
              bucketName := fun _ => "calls" |} stack Transcription
    {| eventBucket := "calls"; eventName := "s3:ObjectRemoved:Delete";
       key := "voices/call-42.wav" |} = false.
Proof. vm_compute. reflexivity. Qed.

Example transcript_triggers_scoring_only :
  let env := {| region := "eu-west-1"; account := "111122223333";
                bucketName := fun _ => "calls" |} in
  let e := {| eventBucket := "calls"; eventName := "s3:ObjectCreated:Put";
              key := "transcription/call-42.txt" |} in
  triggers env stack Scoring e = true
  /\ triggers env stack Transcription e = false.
Proof. vm_compute. split; reflexivity. Qed.

(** *** Time budgets *)

(** C5: the invocation time budget of the Scoring Stage (120 seconds) is
    strictly greater than that of the Transcription Stage (15 seconds). *)
Theorem C5_scoring_budget_larger :
  exists t s : Z,
    timeBudget stack Transcription = Some t
    /\ timeBudget stack Scoring = Some s
    /\ t < s.
Proof.
  exists 15, 120. repeat split; vm_compute; reflexivity.
Qed.

(** *** The environment of a stage *)

(** C4, as the code has it: each stage is started with the store's
    location, injected as [OUTPUT_BUCKET] and resolving to the name of
    the stack's bucket, and with no configuration key name: the only
    other value in its environment is the connection-reuse flag the
    function construct adds. *)
Theorem C4_environment_has_no_config_key (s : Stage) :
  stageEnvironment stack s
  = <[ "AWS_NODEJS_CONNECTION_REUSE_ENABLED" := [Lit "1"] ]>
      {[ "OUTPUT_BUCKET" := [BucketName "SummarizerBucket"] ]}
  /\ stageEnvironment stack s !! "OUTPUT_BUCKET"
     = Some [BucketName "SummarizerBucket"]
  /\ dom (stageEnvironment stack s)
     = {[ "OUTPUT_BUCKET"; "AWS_NODEJS_CONNECTION_REUSE_ENABLED" ]}
  /\ bucket stack = Some "SummarizerBucket"
  /\ (forall env : Env,
        resolve env [BucketName "SummarizerBucket"]
        = bucketName env "SummarizerBucket").
Proof.
  split; [apply stageEnvironment_stack |].
  split; [apply output_bucket_stack |].
  split.
  - rewrite stageEnvironment_stack, dom_insert_L, dom_singleton_L.
    apply union_comm_L.
  - split; [apply stack_fields | intros env; apply resolve_bucketName].
Qed.

(** C4, as stated, fails: no value injected into the Transcription Stage
    is a configuration key name, every injected value being either the
    name of the bucket or the flag [1]. *)
Lemma C4_no_config_key_injected :
  ~ exists (name : string) (v : Template),
      stageEnvironment stack Transcription !! name = Some v
      /\ v <> [BucketName "SummarizerBucket"]
      /\ v <> [Lit "1"].
Proof.
  intros (name & v & Hv & Hb & Hf).
  rewrite stageEnvironment_stack in Hv.
  apply lookup_insert_Some in Hv as [[_ <-] | [_ Hv]]; [now apply Hf |].
  apply lookup_singleton_Some in Hv as [_ <-]. now apply Hb.
Qed.

(** *** Execution identities *)

Ltac bsimp :=
  repeat first
    [ rewrite orb_true_r | rewrite orb_true_l
    | rewrite orb_false_r | rewrite orb_false_l
    | rewrite andb_true_r | rewrite andb_true_l
    | rewrite andb_false_r | rewrite andb_false_l ].

Lemma attachedPolicies_stack (s : Stage) :
  attachedPolicies stack s
  = match s with
    | Transcription => ["S3Policy"; "TranscribePolicy"]
    | Scoring => ["S3Policy"; "TranscribePolicy"; "BedrockRuntimePolicy"]
    end.
Proof. destruct s; vm_compute; reflexivity. Qed.

Lemma carriedPolicies_stack (s : Stage) :
  carriedPolicies stack s = [iam.AWSLambdaBasicExecutionRole].
Proof. destruct s; vm_compute; reflexivity. Qed.

Lemma identityStatements_stack (s : Stage) :
  identityStatements stack s
  = (({| iam.actions := ["s3:*"];
        iam.resources := [ [BucketArn "SummarizerBucket"];
                           [BucketArn "SummarizerBucket"; Lit "/*"] ] |}
     :: {| iam.actions := ["transcribe:*"];
           iam.resources :=
             [ [Lit "arn:aws:transcribe:"; Region; Lit ":"; Account;
                Lit ":*"] ] |}
     :: match s with
        | Transcription => []
        | Scoring =>
            [ {| iam.actions :=
                   ["bedrock:InvokeModel";
                    "bedrock:InvokeModelWithResponseStream"];
                 iam.resources := [ [Lit "*"] ] |} ]
        end)
    ++ [ {| iam.actions := ["logs:CreateLogGroup"; "logs:CreateLogStream";
                            "logs:PutLogEvents"];
            iam.resources := [ [Lit "*"] ] |} ])%list.
Proof. destruct s; vm_compute; reflexivity. Qed.

Lemma policies_stack :
  (s3Policy stack ≫= policyAt stack)
  = Some {| iam.policyName := "S3Policy";
            iam.statements :=
              [ {| iam.actions := ["s3:*"];
                   iam.resources :=
                     [ [BucketArn "SummarizerBucket"];
                       [BucketArn "SummarizerBucket"; Lit "/*"] ] |} ];
            iam.roles := ["S3RecordingTriggerTranscribe";
                          "S3TranscriptionTriggerBedrock"] |}
  /\ (transcribePolicy stack ≫= policyAt stack)
     = Some {| iam.policyName := "TranscribePolicy";
               iam.statements :=
                 [ {| iam.actions := ["transcribe:*"];
                      iam.resources :=
                        [ [Lit "arn:aws:transcribe:"; Region; Lit ":";
                           Account; Lit ":*"] ] |} ];
               iam.roles := ["S3RecordingTriggerTranscribe";
                             "S3TranscriptionTriggerBedrock"] |}
  /\ (bedrockRuntimePolicy stack ≫= policyAt stack)
     = Some {| iam.policyName := "BedrockRuntimePolicy";
               iam.statements :=
                 [ {| iam.actions :=
                        ["bedrock:InvokeModel";
                         "bedrock:InvokeModelWithResponseStream"];
                      iam.resources := [ [Lit "*"] ] |} ];
               iam.roles := ["S3TranscriptionTriggerBedrock"] |}.
Proof. vm_compute. repeat split. Qed.

Lemma resolve_bucketArn (env : Env) (b : string) :
  resolve env [BucketArn b] = bucketArn env b.
Proof. cbv [resolve foldr resolvePart]. apply append_empty_r. Qed.

Lemma resolve_objects (env : Env) (b : string) :
  resolve env [BucketArn b; Lit "/*"] = (bucketArn env b +:+ "/") +:+ "*".
Proof.
  cbv [resolve foldr resolvePart]. rewrite append_empty_r.
  now rewrite append_assoc'.
Qed.

Lemma resolve_transcribe (env : Env) :
  resolve env [Lit "arn:aws:transcribe:"; Region; Lit ":"; Account; Lit ":*"]
  = transcribeArnPrefix env +:+ "*".
Proof.
  cbv [resolve foldr resolvePart transcribeArnPrefix].
  rewrite append_empty_r.
  change ":*" with (":" +:+ "*").
  now rewrite !append_assoc'.
Qed.

Lemma resolve_any (env : Env) : resolve env [Lit "*"] = "*".
Proof. reflexivity. Qed.

Lemma matches_refl (l : string) : Glob.matches l l = true.
Proof.
  rewrite <- (append_empty_r l). now apply matches_self_app.
Qed.

Lemma matches_prefix_star (l t : string) :
  Glob.matches (l +:+ "*") (l +:+ t) = true.
Proof. apply matches_self_app, matches_any. Qed.

Lemma matches_service_star (svc action : string) :
  Glob.literal svc = true ->
  Glob.matches (svc +:+ "*") action = startsWith action svc.
Proof. apply matches_literal_star. Qed.

Lemma bucketArn_literal (env : Env) (b : string) :
  Glob.literal (bucketName env b) = true ->
  Glob.literal (bucketArn env b) = true.
Proof.
  intros H. unfold bucketArn. rewrite literal_app, H. reflexivity.
Qed.

Lemma transcribeArnPrefix_literal (env : Env) :
  Glob.literal (region env) = true ->
  Glob.literal (account env) = true ->
  Glob.literal (transcribeArnPrefix env) = true.
Proof.
  intros Hr Ha. unfold transcribeArnPrefix.
  rewrite !literal_app, Hr, Ha. reflexivity.
Qed.

(** What the identity of a stage may do, statement by statement. *)
Lemma canCall_stack (env : Env) (s : Stage) (action resource : string) :
  canCall env stack s action resource
  = Glob.matches "s3:*" action
    && (Glob.matches (bucketArn env "SummarizerBucket") resource
        || Glob.matches ((bucketArn env "SummarizerBucket" +:+ "/") +:+ "*")
             resource)
    || Glob.matches "transcribe:*" action
       && Glob.matches (transcribeArnPrefix env +:+ "*") resource
    || match s with
       | Transcription => false
       | Scoring =>
           Glob.matches "bedrock:InvokeModel" action
           || Glob.matches "bedrock:InvokeModelWithResponseStream" action
       end
    || (Glob.matches "logs:CreateLogGroup" action
        || Glob.matches "logs:CreateLogStream" action
        || Glob.matches "logs:PutLogEvents" action).
Proof.
  unfold canCall. rewrite identityStatements_stack.
  destruct s;
    cbv [existsb statementAllows iam.actions iam.resources app];
    rewrite ?resolve_bucketArn, ?resolve_objects, ?resolve_transcribe,
      ?resolve_any, ?matches_any;
    bsimp; rewrite ?orb_assoc; reflexivity.
Qed.

(** The same, with the action patterns read out. *)
Lemma canCall_services (env : Env) (s : Stage) (action resource : string) :
  canCall env stack s action resource
  = startsWith action "s3:"
    && (Glob.matches (bucketArn env "SummarizerBucket") resource
        || Glob.matches ((bucketArn env "SummarizerBucket" +:+ "/") +:+ "*")
             resource)
    || startsWith action "transcribe:"
       && Glob.matches (transcribeArnPrefix env +:+ "*") resource
    || match s with
       | Transcription => false
       | Scoring =>
           String.eqb "bedrock:InvokeModel" action
           || String.eqb "bedrock:InvokeModelWithResponseStream" action
       end
    || isLogging action.
Proof.
  rewrite canCall_stack.
  change "s3:*" with ("s3:" +:+ "*").
  change "transcribe:*" with ("transcribe:" +:+ "*").
  rewrite (matches_service_star "s3:") by reflexivity.
  rewrite (matches_service_star "transcribe:") by reflexivity.
  rewrite (matches_literal "bedrock:InvokeModel") by reflexivity.
  rewrite (matches_literal "bedrock:InvokeModelWithResponseStream")
    by reflexivity.
  rewrite (matches_literal "logs:CreateLogGroup") by reflexivity.
  rewrite (matches_literal "logs:CreateLogStream") by reflexivity.
  rewrite (matches_literal "logs:PutLogEvents") by reflexivity.
  reflexivity.
Qed.

(** The store policy lets a stage do anything to the bucket and to any
    object in it. *)
Lemma canCall_store (env : Env) (s : Stage) (op k : string) :
  canCall env stack s ("s3:" +:+ op) (bucketArn env "SummarizerBucket") = true
  /\ canCall env stack s ("s3:" +:+ op)
       (objectArn env "SummarizerBucket" k) = true.
Proof.
  rewrite !canCall_services, startsWith_app.
  split.
  - now rewrite matches_refl.
  - unfold objectArn. rewrite <- append_assoc', matches_prefix_star.
    now bsimp.
Qed.

Lemma scoring_attached :
  "S3Policy" ∈ attachedPolicies stack Scoring
  /\ "BedrockRuntimePolicy" ∈ attachedPolicies stack Scoring.
Proof.
  rewrite (attachedPolicies_stack Scoring).
  split; apply list_elem_of_In; simpl; tauto.
Qed.

Lemma canCall_transcription_service (env : Env) (s : Stage) (op x : string) :
  canCall env stack s ("transcribe:" +:+ op) (transcribeArnPrefix env +:+ x)
  = true.
Proof.
  rewrite canCall_services, startsWith_app, matches_prefix_star.
  now bsimp.
Qed.

Lemma canCall_completion_api (env : Env) (resource : string) :
  canCall env stack Scoring "bedrock:InvokeModel" resource = true
  /\ canCall env stack Scoring "bedrock:InvokeModelWithResponseStream"
       resource = true.
Proof.
  rewrite !canCall_services.
  split; rewrite String.eqb_refl; now bsimp.
Qed.

Lemma transcription_cannot_call_bedrock (env : Env) (op resource : string) :
  canCall env stack Transcription ("bedrock:" +:+ op) resource = false.
Proof.
  rewrite canCall_services.
  assert (H1 : startsWith ("bedrock:" +:+ op) "s3:" = false) by reflexivity.
  assert (H2 : startsWith ("bedrock:" +:+ op) "transcribe:" = false)
    by reflexivity.
  assert (H3 : isLogging ("bedrock:" +:+ op) = false) by reflexivity.
  now rewrite H1, H2, H3.
Qed.

(** C1, as the code has it: the identity of the Transcription Stage is
    attached exactly the store policy and the transcription policy, and
    the identity of the Scoring Stage exactly the store policy, the
    transcription policy and the completion-API policy, each on top of
    the basic execution policy its role is created with.  What an
    identity may do is what those policies name and nothing more: every
    store action on the stack's bucket and on every object in it, every
    transcription action on the resources of the stack's region and
    account, writing its logs and, for the Scoring Stage only, the two
    model invocations.  So the Transcription Stage has no call access to
    the completion API, while the Scoring Stage does have call access to
    the transcription service. *)
Theorem C1_identity_permissions :
  attachedPolicies stack Transcription = ["S3Policy"; "TranscribePolicy"]
  /\ attachedPolicies stack Scoring
     = ["S3Policy"; "TranscribePolicy"; "BedrockRuntimePolicy"]
  /\ (forall s : Stage,
        carriedPolicies stack s = [iam.AWSLambdaBasicExecutionRole])
  /\ (forall (env : Env) (s : Stage) (action resource : string),
        canCall env stack s action resource
        = startsWith action "s3:"
          && (Glob.matches (bucketArn env "SummarizerBucket") resource
              || Glob.matches
                   ((bucketArn env "SummarizerBucket" +:+ "/") +:+ "*")
                   resource)
          || startsWith action "transcribe:"
             && Glob.matches (transcribeArnPrefix env +:+ "*") resource
          || match s with
             | Transcription => false
             | Scoring =>
                 String.eqb "bedrock:InvokeModel" action
                 || String.eqb "bedrock:InvokeModelWithResponseStream" action
             end
          || isLogging action)
  /\ (forall (env : Env) (s : Stage) (op k : string),
        canCall env stack s ("s3:" +:+ op)
          (bucketArn env "SummarizerBucket") = true
        /\ canCall env stack s ("s3:" +:+ op)
             (objectArn env "SummarizerBucket" k) = true)
  /\ (forall (env : Env) (s : Stage) (op x : string),
        canCall env stack s ("transcribe:" +:+ op)
          (transcribeArnPrefix env +:+ x) = true)
  /\ (forall (env : Env) (resource : string),
        canCall env stack Scoring "bedrock:InvokeModel" resource = true
        /\ canCall env stack Scoring "bedrock:InvokeModelWithResponseStream"
             resource = true)
  /\ (forall (env : Env) (op resource : string),
        canCall env stack Transcription ("bedrock:" +:+ op) resource = false).
Proof.
  split; [apply (attachedPolicies_stack Transcription) |].
  split; [apply (attachedPolicies_stack Scoring) |].
  split; [apply carriedPolicies_stack |].
  split; [apply canCall_services |].
  split; [apply canCall_store |].
  split; [apply canCall_transcription_service |].
  split; [apply canCall_completion_api |].
  apply transcription_cannot_call_bedrock.
Qed.

(** C1, as stated, fails twice over: the identity of the Scoring Stage
    may start a transcription job, and the identity of the Transcription
    Stage may delete the bucket, which is neither a read nor a write the
    stage needs. *)
Lemma C1_scoring_calls_transcription :
  canCall exampleEnv stack Scoring "transcribe:StartTranscriptionJob"
    "arn:aws:transcribe:us-east-1:123456789012:transcription-job/call-42"
  = true
  /\ canCall exampleEnv stack Transcription "s3:DeleteBucket"
       (bucketArn exampleEnv "SummarizerBucket") = true.
Proof. vm_compute. split; reflexivity. Qed.

(** *** Where a stage may write *)

Lemma canCall_put (env : Env) (s : Stage) (resource : string) :
  canCall env stack s "s3:PutObject" resource
  = Glob.matches (bucketArn env "SummarizerBucket") resource
    || Glob.matches ((bucketArn env "SummarizerBucket" +:+ "/") +:+ "*")
         resource.
Proof.
  rewrite canCall_services.
  assert (H1 : startsWith "s3:PutObject" "s3:" = true) by reflexivity.
  assert (H2 : startsWith "s3:PutObject" "transcribe:" = false)
    by reflexivity.
  assert (H3 : isLogging "s3:PutObject" = false) by reflexivity.
  rewrite H1, H2, H3. destruct s; cbn [String.eqb]; now bsimp.
Qed.

(** C2, as the code has it: the store-write permission of each stage's
    identity covers every key of the stack's bucket, whatever its prefix,
    and (a bucket name having no wildcard character in it) nothing that
    is not the bucket or one of its objects. *)
Theorem C2_write_covers_whole_bucket (env : Env) (s : Stage)
    (Hname : Glob.literal (bucketName env "SummarizerBucket") = true) :
  (forall k : string,
     canCall env stack s "s3:PutObject" (objectArn env "SummarizerBucket" k)
     = true)
  /\ (forall resource : string,
        canCall env stack s "s3:PutObject" resource
        = String.eqb (bucketArn env "SummarizerBucket") resource
          || startsWith resource (bucketArn env "SummarizerBucket" +:+ "/")).
Proof.
  split.
  - intros k. apply (canCall_store env s "PutObject" k).
  - intros resource. rewrite canCall_put.
    pose proof (bucketArn_literal env _ Hname) as Harn.
    rewrite matches_literal by exact Harn.
    rewrite matches_literal_star; [reflexivity |].
    rewrite literal_app, Harn. reflexivity.
Qed.

Lemma C2_write_covers_whole_bucket_witness :
  Glob.literal (bucketName exampleEnv "SummarizerBucket") = true
  /\ canCall exampleEnv stack Scoring "s3:PutObject"
       (objectArn exampleEnv "SummarizerBucket" "voices/call-42.wav") = true.
Proof.
  split; [reflexivity |].
  apply (C2_write_covers_whole_bucket exampleEnv Scoring); reflexivity.
Defined.

(** C2, as stated, fails: the identity of the Transcription Stage may
    write a key under [config/], which is not under [transcription/]. *)
Lemma C2_transcription_writes_config :
  canCall exampleEnv stack Transcription "s3:PutObject"
    (objectArn exampleEnv "SummarizerBucket" "config/prompt.txt") = true
  /\ startsWith "config/prompt.txt" "transcription/" = false.
Proof. vm_compute. split; reflexivity. Qed.

(** *** How far the service permissions reach *)

(** C10: the completion-API permission of the Scoring Stage's identity
    covers every resource whatsoever, while (region and account having no
    wildcard character in them) the transcription permission covers
    exactly the resources named under the stack's own region and
    account. *)
Theorem C10_bedrock_unscoped_transcribe_scoped (env : Env)
    (Hregion : Glob.literal (region env) = true)
    (Haccount : Glob.literal (account env) = true) :
  (forall resource : string,
     policyAllows env stack (bedrockRuntimePolicy stack)
       "bedrock:InvokeModel" resource = true
     /\ policyAllows env stack (bedrockRuntimePolicy stack)
          "bedrock:InvokeModelWithResponseStream" resource = true)
  /\ "BedrockRuntimePolicy" ∈ attachedPolicies stack Scoring
  /\ bedrockRuntimePolicy stack = Some "BedrockRuntimePolicy"
  /\ (forall op resource : string,
        policyAllows env stack (transcribePolicy stack)
          ("transcribe:" +:+ op) resource
        = startsWith resource (transcribeArnPrefix env)).
Proof.
  destruct policies_stack as (_ & Ht & Hb).
  unfold policyAllows. rewrite Ht, Hb.
  cbv [existsb statementAllows iam.actions iam.resources iam.statements].
  rewrite resolve_any, resolve_transcribe.
  split; [| split; [| split]].
  - intros resource. rewrite !matches_refl, matches_any.
    split; cbn [orb andb]; now rewrite ?orb_true_r.
  - apply scoring_attached.
  - apply stack_fields.
  - intros op resource.
    change "transcribe:*" with ("transcribe:" +:+ "*").
    rewrite matches_prefix_star.
    rewrite matches_literal_star
      by (now apply transcribeArnPrefix_literal).
    cbn [orb andb]. now rewrite !orb_false_r.
Qed.

Lemma C10_bedrock_unscoped_transcribe_scoped_witness :
  Glob.literal (region exampleEnv) = true
  /\ Glob.literal (account exampleEnv) = true
  /\ policyAllows exampleEnv stack (bedrockRuntimePolicy stack)
       "bedrock:InvokeModel"
       "arn:aws:bedrock:eu-west-1::foundation-model/any" = true
  /\ policyAllows exampleEnv stack (transcribePolicy stack)
       ("transcribe:" +:+ "StartTranscriptionJob")
       "arn:aws:transcribe:eu-west-1:123456789012:transcription-job/x"
     = false.
Proof.
  split; [reflexivity |]. split; [reflexivity |].
  pose proof (C10_bedrock_unscoped_transcribe_scoped exampleEnv
                eq_refl eq_refl) as (Hb & _ & _ & Ht).
  split; [apply Hb |].
  rewrite Ht. reflexivity.
Defined.

(** *** Invocation paths *)

Lemma invocationPaths_stack (s : Stage) :
  invocationPaths stack s
  = [ ByEventSource
        (eventsources.S3EventSource "SummarizerBucket"
           [s3.EventType.OBJECT_CREATED]
           [ {| s3.prefix :=
                  Some match s with
                       | Transcription => "voices/"
                       | Scoring => "transcription/"
                       end;
                s3.suffix := None |} ]);
      ByPermission (notificationPermission "SummarizerBucket") ].
Proof. destruct s; vm_compute; reflexivity. Qed.

Lemma permissions_stack (s : Stage) :
  lambda.permissions <$> stageFunction stack s
  = Some [notificationPermission "SummarizerBucket"].
Proof. destruct s; vm_compute; reflexivity. Qed.

Lemma resolve_account (env : Env) : resolve env [Account] = account env.
Proof. cbv [resolve foldr resolvePart]. apply append_empty_r. Qed.

Lemma mayInvoke_stack (env : Env) (s : Stage) (who acct arn : string) :
  mayInvoke env stack s who acct arn
  = String.eqb "s3.amazonaws.com" who
    && String.eqb (account env) acct
    && String.eqb (bucketArn env "SummarizerBucket") arn.
Proof.
  unfold mayInvoke. pose proof (permissions_stack s) as H.
  destruct (stageFunction stack s) as [f|]; [| discriminate H].
  injection H as ->.
  cbv [existsb notificationPermission lambda.principal lambda.sourceArn
       lambda.sourceAccount].
  rewrite resolve_bucketArn, resolve_account. now bsimp.
Qed.

Lemma cannot_invoke_functions (env : Env) (s : Stage) (op resource : string) :
  canCall env stack s ("lambda:" +:+ op) resource = false.
Proof.
  rewrite canCall_services.
  assert (H1 : startsWith ("lambda:" +:+ op) "s3:" = false) by reflexivity.
  assert (H2 : startsWith ("lambda:" +:+ op) "transcribe:" = false)
    by reflexivity.
  assert (H3 : isLogging ("lambda:" +:+ op) = false) by reflexivity.
  rewrite H1, H2, H3. now destruct s.
Qed.

(** C8: what is configured to invoke a stage is one storage event source,
    for object-create notifications of the stack's bucket, together with
    the resource permission that event source adds so that the storage
    service can deliver them: the storage service, acting for the stack's
    bucket in the stack's account, is the only principal that may invoke a
    stage.  No rule
    targets a stage, and no stage identity may invoke a function.  The
    store is the only thing the stages are coordinated through. *)
Theorem C8_only_storage_events (s : Stage) :
  (exists src : eventsources.EventSource,
     invocationPaths stack s
     = [ ByEventSource src;
         ByPermission (notificationPermission (sourceBucket src)) ]
     /\ isCreateNotification (ByEventSource src) = true
     /\ sourceBucket src = "SummarizerBucket")
  /\ bucket stack = Some "SummarizerBucket"
  /\ (forall (env : Env) (who acct arn : string),
        mayInvoke env stack s who acct arn
        = String.eqb "s3.amazonaws.com" who
          && String.eqb (account env) acct
          && String.eqb (bucketArn env "SummarizerBucket") arn)
  /\ (forall (env : Env) (s' : Stage) (op resource : string),
        canCall env stack s' ("lambda:" +:+ op) resource = false).
Proof.
  split.
  - rewrite invocationPaths_stack.
    eexists (eventsources.S3EventSource "SummarizerBucket" _ _).
    split; [reflexivity |]. split; reflexivity.
  - split; [apply stack_fields |].
    split; [intros; apply mayInvoke_stack | apply cannot_invoke_functions].
Qed.

(** *** One store *)

(** C9: the stack creates one bucket; each stage is triggered from that
    bucket and is given the name of that same bucket as [OUTPUT_BUCKET],
    so a notification that invokes a stage always comes from the bucket
    the stage is told to use. *)
Theorem C9_single_shared_bucket (s : Stage) :
  buckets stack = ["SummarizerBucket"]
  /\ bucket stack = Some "SummarizerBucket"
  /\ map sourceBucket (stageEventSources stack s) = ["SummarizerBucket"]
  /\ stageEnvironment stack s !! "OUTPUT_BUCKET"
     = Some [BucketName "SummarizerBucket"]
  /\ (forall (env : Env) (e : S3Event),
        implb (triggers env stack s e)
          (String.eqb (resolve env [BucketName "SummarizerBucket"])
             (eventBucket e)) = true).
Proof.
  split; [apply stack_buckets |].
  split; [apply stack_fields |].
  split; [now rewrite stageEventSources_stack |].
  split; [apply output_bucket_stack |].
  intros env e.
  rewrite resolve_bucketName, triggers_stack.
  destruct (String.eqb (bucketName env "SummarizerBucket") (eventBucket e));
    cbn [andb]; [| reflexivity].
  now destruct (objectCreated (eventName e) && startsWith (key e) _).
Qed.

(** *** The configuration objects *)

Lemma deployments_stack :
  deployments stack
  = [ {| s3deploy.sources := [s3deploy.asset "./config"];
         s3deploy.destinationBucket := "SummarizerBucket";
         s3deploy.destinationKeyPrefix := Some "config";
         s3deploy.retainOnDelete := Some true;
         s3deploy.prune := None |} ].
Proof. vm_compute. reflexivity. Qed.

(** What a deployment of the stack leaves in the bucket: the files of
    [./config] under [config/], and of what was there before everything
    outside [config/]. *)
Lemma deploy_stack (content : string -> list string) (store : list string)
    (k : string) :
  holds (deploy stack "SummarizerBucket" content store) k
  = holds (map (String.append "config/") (content "./config")) k
    || holds store k && negb (startsWith k "config/").
Proof.
  unfold deploy. rewrite deployments_stack.
  cbn [foldr s3deploy.destinationBucket]. rewrite String.eqb_refl.
  rewrite holds_app, holds_filter.
  unfold prunes.
  change (assetKeys _ content)
    with (map (String.append "config/") (content "./config") ++ [])%list.
  rewrite app_nil_r.
  cbv [s3deploy.prune destinationDir s3deploy.destinationKeyPrefix].
  change ("config" +:+ "/") with "config/".
  destruct (holds (map (String.append "config/") (content "./config")) k),
    (holds store k), (startsWith k "config/"); reflexivity.
Qed.

(** C6: the scoring prompt template is kept in the stack's own bucket,
    the one both stages are triggered from and the one the Scoring Stage
    is told to use, under keys that start with [config/].  It is put
    there by the one deployment construct of the stack, which deploys the
    directory [./config] and is not one of the stages: after a
    deployment the bucket holds [config/<file>] exactly for the files of
    that directory, and the Scoring Stage, fetching its template by a
    key under [config/], finds it exactly when the directory has it. *)
Theorem C6_config_in_same_store :
  exists d : s3deploy.BucketDeployment,
    deployments stack = [d]
    /\ children stack !! "DeployConfig" = Some (CDeployment d)
    /\ s3deploy.sources d = [s3deploy.asset "./config"]
    /\ Some (s3deploy.destinationBucket d) = bucket stack
    /\ buckets stack = [s3deploy.destinationBucket d]
    /\ (forall s : Stage,
          map sourceBucket (stageEventSources stack s)
          = [s3deploy.destinationBucket d])
    /\ stageEnvironment stack Scoring !! "OUTPUT_BUCKET"
       = Some [BucketName (s3deploy.destinationBucket d)]
    /\ (forall file : string,
          startsWith (deployedKey d file) "config/" = true
          /\ deployedKey d file = templateKey file)
    /\ (forall (content : string -> list string) (store : list string)
               (file : string),
          holds (deploy stack (s3deploy.destinationBucket d) content store)
            (deployedKey d file)
          = holds (content "./config") file)
    /\ (forall (env : Env) (content : string -> list string)
               (store : list string) (name : string),
          fetchTemplate env stack
            (deploy stack (s3deploy.destinationBucket d) content store) name
          = holds (content "./config") name)
    /\ (forall s : Stage,
          bool_decide (stageRef stack s = Some "DeployConfig") = false).
Proof.
  eexists. split; [apply deployments_stack |].
  split; [vm_compute; reflexivity |].
  split; [reflexivity |].
  split; [symmetry; apply stack_fields |].
  split; [apply stack_buckets |].
  split; [intros s; now rewrite stageEventSources_stack |].
  split; [apply output_bucket_stack |].
  cbv [s3deploy.destinationBucket].
  assert (Hput : forall content store file,
            holds (deploy stack "SummarizerBucket" content store)
              ("config/" +:+ file)
            = holds (content "./config") file).
  { intros content store file.
    rewrite deploy_stack, holds_map_append, startsWith_app. now bsimp. }
  split; [| split; [| split]].
  - intros file. split; [| reflexivity].
    cbv [deployedKey s3deploy.destinationKeyPrefix].
    rewrite <- append_assoc'. apply startsWith_app.
  - intros content store file. apply Hput.
  - intros env content store name. unfold fetchTemplate.
    rewrite output_bucket_stack, resolve_bucketName.
    pose proof (proj2 (canCall_store env Scoring "GetObject"
                         (templateKey name))) as Hget.
    unfold objectArn, bucketArn in Hget.
    change ("s3:" +:+ "GetObject") with "s3:GetObject" in Hget.
    rewrite Hget. cbn [andb]. apply Hput.
  - intros s. destruct s; vm_compute; reflexivity.
Qed.

(** *** Retention *)

Lemma removeStack_stack :
  removeStack stack
  = {[ "SummarizerBucket" :=
         CBucket {| s3.blockPublicAccess := Some s3.BLOCK_ALL;
                    s3.removalPolicy := Some RETAIN;
                    s3.lifecycleRules := [];
                    s3.autoDeleteObjects := None |} ]}.
Proof. vm_compute. reflexivity. Qed.

Lemma stage_removal_policy (s : Stage) :
  lambda.removalPolicy <$> stageFunction stack s = Some (Some DESTROY).
Proof. destruct s; vm_compute; reflexivity. Qed.

(** C7, as the code has it: the bucket has no lifecycle rule and is not
    emptied on removal, so the stack schedules no expiry of any object;
    removing the stack deletes the stage functions and keeps the bucket
    with every object in it, the deployed [config/] objects included.
    What the stack does delete is stale configuration: a deployment
    leaves in the bucket the files it writes and, of what was there
    before, exactly the objects outside [config/]. *)
Theorem C7_objects_retained (k : string) :
  exists (x : s3.Bucket) (d : s3deploy.BucketDeployment),
    bucketAt stack "SummarizerBucket" = Some x
    /\ deployments stack = [d]
    /\ s3.lifecycleRules x = []
    /\ s3.autoDeleteObjects x = None
    /\ expires x k = false
    /\ removeStack stack = {[ "SummarizerBucket" := CBucket x ]}
    /\ (forall s : Stage,
          (fn ← stageRef stack s; removeStack stack !! fn) = None)
    /\ survivesRemoval stack "SummarizerBucket" k = true
    /\ destinationDir d = "config/"
    /\ (forall (content : string -> list string) (store : list string),
          holds (deploy stack "SummarizerBucket" content store) k
          = holds (assetKeys d content) k
            || holds store k && negb (startsWith k (destinationDir d))).
Proof.
  eexists. eexists. split; [vm_compute; reflexivity |].
  split; [apply deployments_stack |].
  split; [reflexivity |]. split; [reflexivity |]. split; [reflexivity |].
  split; [apply removeStack_stack |].
  split.
  { intros s. rewrite removeStack_stack. destruct s; vm_compute; reflexivity. }
  split.
  { unfold survivesRemoval. rewrite deployments_stack.
    assert (Hb : bucketAt stack "SummarizerBucket"
                 = Some {| s3.blockPublicAccess := Some s3.BLOCK_ALL;
                           s3.removalPolicy := Some RETAIN;
                           s3.lifecycleRules := [];
                           s3.autoDeleteObjects := None |})
      by (vm_compute; reflexivity).
    rewrite Hb.
    cbv [forallb takesBack emptiedOnRemoval s3.removalPolicy
         s3deploy.retainOnDelete].
    now rewrite andb_false_r. }
  split; [reflexivity |].
  intros content store. rewrite deploy_stack.
  change (assetKeys _ content)
    with (map (String.append "config/") (content "./config") ++ [])%list.
  now rewrite app_nil_r.
Qed.

(** C7, as stated, fails: an object under [config/] that the deployed
    directory no longer has is deleted by the next deployment. *)
Lemma C7_stale_config_deleted :
  holds ["config/old.txt"; "voices/call-42.wav"] "config/old.txt" = true
  /\ holds (deploy stack "SummarizerBucket" (fun _ => ["prompt.txt"])
             ["config/old.txt"; "voices/call-42.wav"])
       "config/old.txt" = false
  /\ holds (deploy stack "SummarizerBucket" (fun _ => ["prompt.txt"])
             ["config/old.txt"; "voices/call-42.wav"])
       "voices/call-42.wav" = true.
Proof. vm_compute. repeat split. Qed.

Example config_object_survives :
  survivesRemoval stack "SummarizerBucket" "config/prompt.txt" = true.
Proof. vm_compute. reflexivity. Qed.

(** ** Further properties of the stack *)

(** *** Routing *)

Lemma prefixes_disjoint (k : string) :
  startsWith k "voices/" && startsWith k "transcription/" = false.
Proof.
  destruct k as [|c k]; [reflexivity |].
  cbn [startsWith].
  destruct (Ascii.eqb_spec "v" c) as [<-|_]; [| reflexivity].
  cbn [andb]. apply andb_false_r.
Qed.

(** X1: no notification invokes both stages: the two prefix filters of
    the stack never accept the same key. *)
Theorem X1_triggers_disjoint (env : Env) (e : S3Event) :
  triggers env stack Transcription e && triggers env stack Scoring e = false.
Proof.
  rewrite !triggers_stack.
  pose proof (prefixes_disjoint (key e)) as H.
  destruct (startsWith (key e) "voices/");
    destruct (startsWith (key e) "transcription/");
    try discriminate H; now rewrite ?andb_false_r.
Qed.

(** X2: deploying the configuration invokes no stage: whatever the file,
    the bucket and the event name, a notification for the key the
    deployment stores a file under is accepted by neither stage. *)
Theorem X2_config_deploy_triggers_nothing :
  exists d : s3deploy.BucketDeployment,
    deployments stack = [d]
    /\ (forall (env : Env) (s : Stage) (bkt name file : string),
          triggers env stack s
            {| eventBucket := bkt; eventName := name;
               key := deployedKey d file |} = false).
Proof.
  eexists. split; [apply deployments_stack |].
  intros env s bkt name file. rewrite triggers_stack.
  cbv [key deployedKey s3deploy.destinationKeyPrefix].
  assert (H : forall p, p = "voices/" \/ p = "transcription/" ->
                startsWith ("config" +:+ "/" +:+ file) p = false).
  { intros p [-> | ->]; reflexivity. }
  rewrite H; [apply andb_false_r |]. destruct s; auto.
Qed.

(** X3: the stack filters on the prefix alone.  Every object-create
    notification of the stack's bucket for a key under [voices/] invokes
    the Transcription Stage, and every one for a key under
    [transcription/] invokes the Scoring Stage, whatever follows the
    prefix: any extension, or nothing at all. *)
Theorem X3_any_key_under_prefix_triggers (env : Env) (name rest : string)
    (Hname : objectCreated name = true) :
  triggers env stack Transcription
    {| eventBucket := bucketName env "SummarizerBucket";
       eventName := name; key := "voices/" +:+ rest |} = true
  /\ triggers env stack Scoring
       {| eventBucket := bucketName env "SummarizerBucket";
          eventName := name; key := "transcription/" +:+ rest |} = true.
Proof.
  rewrite !triggers_stack. cbv [eventBucket eventName key].
  rewrite String.eqb_refl, Hname, !startsWith_app. split; reflexivity.
Qed.

Lemma X3_any_key_under_prefix_triggers_witness :
  objectCreated "s3:ObjectCreated:CompleteMultipartUpload" = true
  /\ triggers exampleEnv stack Transcription
       {| eventBucket := bucketName exampleEnv "SummarizerBucket";
          eventName := "s3:ObjectCreated:CompleteMultipartUpload";
          key := "voices/" +:+ "" |} = true.
Proof.
  split; [reflexivity |].
  apply (X3_any_key_under_prefix_triggers exampleEnv
           "s3:ObjectCreated:CompleteMultipartUpload" "").
  reflexivity.
Defined.

(** X4: the stages chain through the store.  The identity of the
    Transcription Stage may put any key under [transcription/] into the
    stack's bucket, and the notification of that put invokes the Scoring
    Stage and does not invoke the Transcription Stage again. *)
Theorem X4_transcript_write_invokes_scoring (env : Env) (rest : string) :
  canCall env stack Transcription "s3:PutObject"
    (objectArn env "SummarizerBucket" ("transcription/" +:+ rest)) = true
  /\ triggers env stack Scoring
       {| eventBucket := bucketName env "SummarizerBucket";
          eventName := "s3:ObjectCreated:Put";
          key := "transcription/" +:+ rest |} = true
  /\ triggers env stack Transcription
       {| eventBucket := bucketName env "SummarizerBucket";
          eventName := "s3:ObjectCreated:Put";
          key := "transcription/" +:+ rest |} = false.
Proof.
  split; [apply (canCall_store env Transcription "PutObject") |].
  rewrite !triggers_stack. cbv [eventBucket eventName key].
  rewrite String.eqb_refl, startsWith_app.
  split; [reflexivity |].
  assert (H : startsWith ("transcription/" +:+ rest) "voices/" = false)
    by reflexivity.
  rewrite H. apply andb_false_r.
Qed.

(** X5: nothing in the stack keeps a stage from invoking itself: the
    identity of each stage may put a key under the very prefix the stage
    is triggered by, and the notification of that put invokes the stage. *)
Theorem X5_stage_may_retrigger_itself (env : Env) (rest : string) :
  (canCall env stack Transcription "s3:PutObject"
     (objectArn env "SummarizerBucket" ("voices/" +:+ rest)) = true
   /\ triggers env stack Transcription
        {| eventBucket := bucketName env "SummarizerBucket";
           eventName := "s3:ObjectCreated:Put";
           key := "voices/" +:+ rest |} = true)
  /\ (canCall env stack Scoring "s3:PutObject"
        (objectArn env "SummarizerBucket" ("transcription/" +:+ rest)) = true
      /\ triggers env stack Scoring
           {| eventBucket := bucketName env "SummarizerBucket";
              eventName := "s3:ObjectCreated:Put";
              key := "transcription/" +:+ rest |} = true).
Proof.
  split; (split; [apply (canCall_store env _ "PutObject") |]);
    rewrite triggers_stack; cbv [eventBucket eventName key];
    now rewrite String.eqb_refl, startsWith_app.
Qed.

(** *** Reach of the identities *)

(** X6: the identity of a stage can call nothing outside the store, the
    transcription service, its own logging and, for the Scoring Stage,
    the completion API: any action it is allowed is named [s3:...] or
    [transcribe:...], or is one of the three logging actions of the
    basic execution policy, or (Scoring Stage only) is named
    [bedrock:...]. *)
Theorem X6_allowed_services_closed (env : Env) (s : Stage)
    (action resource : string)
    (Hallowed : canCall env stack s action resource = true) :
  startsWith action "s3:"
  || startsWith action "transcribe:"
  || isLogging action
  || match s with
     | Transcription => false
     | Scoring => startsWith action "bedrock:"
     end = true.
Proof.
  rewrite canCall_services in Hallowed.
  destruct (startsWith action "s3:"); [reflexivity |].
  destruct (startsWith action "transcribe:"); [reflexivity |].
  destruct (isLogging action); [reflexivity |].
  cbn [andb orb] in *. destruct s; [discriminate |].
  rewrite orb_false_r in Hallowed.
  apply orb_true_iff in Hallowed as [H | H];
    apply String.eqb_eq in H; subst action; reflexivity.
Qed.

Lemma X6_allowed_services_closed_witness :
  canCall exampleEnv stack Scoring "bedrock:InvokeModel"
    "arn:aws:bedrock:us-east-1::foundation-model/m" = true
  /\ startsWith "bedrock:InvokeModel" "bedrock:" = true.
Proof.
  split; [vm_compute; reflexivity |].
  pose proof (X6_allowed_services_closed exampleEnv Scoring
                "bedrock:InvokeModel"
                "arn:aws:bedrock:us-east-1::foundation-model/m") as H.
  apply H. vm_compute. reflexivity.
Defined.

(** X7: of the completion API the Scoring Stage's identity is allowed the
    two invocation actions and no other: a [bedrock:] action is allowed,
    on any resource, exactly when it is [InvokeModel] or
    [InvokeModelWithResponseStream]. *)
Theorem X7_bedrock_actions_exact (env : Env) (op resource : string) :
  canCall env stack Scoring ("bedrock:" +:+ op) resource
  = String.eqb "InvokeModel" op
    || String.eqb "InvokeModelWithResponseStream" op.
Proof.
  rewrite canCall_services.
  assert (H1 : startsWith ("bedrock:" +:+ op) "s3:" = false) by reflexivity.
  assert (H2 : startsWith ("bedrock:" +:+ op) "transcribe:" = false)
    by reflexivity.
  assert (H3 : isLogging ("bedrock:" +:+ op) = false) by reflexivity.
  rewrite H1, H2, H3. bsimp. reflexivity.
Qed.

(** X8: the store permission stops at the stack's bucket for every store
    action, not only for writes: (the bucket name having no wildcard
    character in it) a stage's identity is allowed an [s3:] action on a
    resource exactly when the resource is the bucket itself or an object
    of it.  A bucket whose name merely begins with the stack bucket's
    name is not covered. *)
Theorem X8_store_permission_confined (env : Env) (s : Stage)
    (op resource : string)
    (Hname : Glob.literal (bucketName env "SummarizerBucket") = true) :
  canCall env stack s ("s3:" +:+ op) resource
  = String.eqb (bucketArn env "SummarizerBucket") resource
    || startsWith resource (bucketArn env "SummarizerBucket" +:+ "/").
Proof.
  rewrite canCall_services.
  assert (H1 : startsWith ("s3:" +:+ op) "s3:" = true) by reflexivity.
  assert (H2 : startsWith ("s3:" +:+ op) "transcribe:" = false)
    by reflexivity.
  assert (H3 : String.eqb "bedrock:InvokeModel" ("s3:" +:+ op) = false)
    by reflexivity.
  assert (H4 : String.eqb "bedrock:InvokeModelWithResponseStream"
                 ("s3:" +:+ op) = false)
    by reflexivity.
  assert (H5 : isLogging ("s3:" +:+ op) = false) by reflexivity.
  rewrite H1, H2, H3, H4, H5.
  pose proof (bucketArn_literal env _ Hname) as Harn.
  rewrite matches_literal by exact Harn.
  rewrite matches_literal_star by (rewrite literal_app, Harn; reflexivity).
  destruct s; now bsimp.
Qed.

Lemma X8_store_permission_confined_witness :
  Glob.literal (bucketName exampleEnv "SummarizerBucket") = true
  /\ canCall exampleEnv stack Transcription ("s3:" +:+ "GetObject")
       "arn:aws:s3:::calls-SummarizerBucket2/voices/a.wav" = false.
Proof.
  split; [reflexivity |].
  rewrite (X8_store_permission_confined exampleEnv Transcription
             "GetObject" _ eq_refl).
  reflexivity.
Defined.

(** X9: the two roles share the store and transcription policies, so the
    Scoring Stage's identity is allowed everything the Transcription
    Stage's identity is allowed, and beyond that only the two completion
    API actions. *)
Theorem X9_scoring_extends_transcription (env : Env)
    (action resource : string) :
  canCall env stack Scoring action resource
  = canCall env stack Transcription action resource
    || String.eqb "bedrock:InvokeModel" action
    || String.eqb "bedrock:InvokeModelWithResponseStream" action.
Proof.
  rewrite !canCall_services.
  destruct (startsWith action "s3:" && _),
    (startsWith action "transcribe:" && _),
    (String.eqb "bedrock:InvokeModel" action),
    (String.eqb "bedrock:InvokeModelWithResponseStream" action),
    (isLogging action); reflexivity.
Qed.

(** X10: a stage can always read what it is invoked for: whenever a
    notification invokes a stage, the identity of that stage is allowed
    to get the object the notification names. *)
Theorem X10_triggering_object_readable (env : Env) (s : Stage) (e : S3Event)
    (Htrig : triggers env stack s e = true) :
  canCall env stack s "s3:GetObject"
    (("arn:aws:s3:::" +:+ eventBucket e) +:+ "/" +:+ key e) = true.
Proof.
  rewrite triggers_stack in Htrig.
  apply andb_true_iff in Htrig as [Htrig _].
  apply andb_true_iff in Htrig as [Hb _].
  apply String.eqb_eq in Hb. rewrite <- Hb.
  apply (canCall_store env s "GetObject" (key e)).
Qed.

Lemma X10_triggering_object_readable_witness :
  triggers exampleEnv stack Scoring
    {| eventBucket := "calls-SummarizerBucket";
       eventName := "s3:ObjectCreated:Put";
       key := "transcription/call-42.txt" |} = true
  /\ canCall exampleEnv stack Scoring "s3:GetObject"
       "arn:aws:s3:::calls-SummarizerBucket/transcription/call-42.txt" = true.
Proof.
  split; [vm_compute; reflexivity |].
  apply (X10_triggering_object_readable exampleEnv Scoring
           {| eventBucket := "calls-SummarizerBucket";
              eventName := "s3:ObjectCreated:Put";
              key := "transcription/call-42.txt" |}).
  vm_compute. reflexivity.
Defined.

(** X11: a stage is allowed to write where it is told to: the value
    injected as [OUTPUT_BUCKET] names a bucket in which the stage's
    identity may put an object under any key. *)
Theorem X11_output_bucket_writable (s : Stage) :
  exists v : Template,
    stageEnvironment stack s !! "OUTPUT_BUCKET" = Some v
    /\ (forall (env : Env) (k : string),
          canCall env stack s "s3:PutObject"
            (("arn:aws:s3:::" +:+ resolve env v) +:+ "/" +:+ k) = true).
Proof.
  eexists. split; [now rewrite stageEnvironment_stack |].
  intros env k.
  assert (Hres : resolve env [BucketName "SummarizerBucket"]
                 = bucketName env "SummarizerBucket").
  { cbv [resolve foldr resolvePart]. apply append_empty_r. }
  rewrite Hres. apply (canCall_store env s "PutObject" k).
Qed.

(** X12: the Scoring Stage is allowed to read the configuration: its
    identity may get every object the deployment stores, from the bucket
    the deployment stores it in. *)
Theorem X12_scoring_reads_config :
  exists d : s3deploy.BucketDeployment,
    deployments stack = [d]
    /\ (forall (env : Env) (file : string),
          canCall env stack Scoring "s3:GetObject"
            (objectArn env (s3deploy.destinationBucket d)
               (deployedKey d file)) = true).
Proof.
  eexists. split; [apply deployments_stack |].
  intros env file. cbv [s3deploy.destinationBucket].
  apply (canCall_store env Scoring "GetObject").
Qed.

(** *** Order of construction and removal *)



(** The stack object once its removable constructs are gone. *)
Lemma removed_stage_gone (s : Stage) :
  stageFunction (withChildren (fun _ => removeStack stack) stack) s = None.
Proof.
  unfold stageFunction. rewrite removeStack_stack.
  destruct s; vm_compute; reflexivity.
Qed.

(** X14: both stage functions are given removal policy [DESTROY] while
    the bucket is kept: once the stack is removed, no notification
    invokes a stage any more and no stage identity is left with any
    permission, and the bucket construct is still there unchanged. *)
Theorem X14_nothing_runs_after_removal (env : Env) (s : Stage) :
  lambda.removalPolicy <$> stageFunction stack s = Some (Some DESTROY)
  /\ (forall e : S3Event,
        triggers env (withChildren (fun _ => removeStack stack) stack) s e
        = false)
  /\ (forall action resource : string,
        canCall env (withChildren (fun _ => removeStack stack) stack) s
          action resource = false)
  /\ bucketAt (withChildren (fun _ => removeStack stack) stack)
       "SummarizerBucket"
     = bucketAt stack "SummarizerBucket"
  /\ is_Some (bucketAt stack "SummarizerBucket").
Proof.
  split; [apply stage_removal_policy |].
  split; [| split; [| split]].
  - intros e. unfold triggers. now rewrite removed_stage_gone.
  - intros action resource.
    unfold canCall, identityStatements, attachedPolicies, carriedPolicies,
      stageRole.
    now rewrite removed_stage_gone.
  - unfold bucketAt, withChildren. cbn [children].
    rewrite removeStack_stack. vm_compute. reflexivity.
  - vm_compute. eauto.
Qed.
